(** * Calendar page (client/src/pages/Calendar.tsx)

    A shallow embedding of the calendar page component: its view state,
    the filter over calendar items, the navigation and drag-and-drop
    handlers, the auto-rollover effect and the three render paths, with
    the store calls and toasts of the handlers recorded as a trace.

    Conventions of the model.
    - A JavaScript string is a [string]; [toLowerCase] folds the ASCII
      letters.
    - A valid [Date] is its millisecond timestamp, a [Z]; a [Date] that may
      be the Invalid Date is a [JSDate] ([None] is the Invalid Date) and a
      number that may be NaN is a [JSNum] ([None] is NaN). The bound of
      8.64e15 ms on timestamps is not modelled.
    - An object literal handed to the store is a [gmap string JSVal].
    - The functions of date-fns, the translation function and the helpers
      of calendarHelpers are fields of the class [Externals]; nothing is
      assumed about them. *)

From Stdlib Require Import ZArith Bool Ascii String List Permutation Sorted Lia.
From stdpp Require Import base option list gmap strings.

Local Open Scope Z_scope.
Local Open Scope string_scope.

(** ** JavaScript values *)

Inductive JSVal : Type :=
| VUndef
| VBool (b : bool)
| VNum (n : Z)
| VStr (s : string).

Abbreviation Obj := (gmap string JSVal).

Definition JSDate : Type := option Z.
Definition JSNum : Type := option Z.

(** [Date.prototype.getTime]: NaN for the Invalid Date. *)
Definition getTime (d : JSDate) : JSNum := d.

(** [new Date(n)]: the Invalid Date for NaN. *)
Definition new_Date (n : JSNum) : JSDate := n.

(** Number subtraction and addition, NaN-propagating. *)
Definition num_sub (a b : JSNum) : JSNum :=
  match a, b with
  | Some x, Some y => Some (x - y)
  | _, _ => None
  end.

Definition num_add (a b : JSNum) : JSNum :=
  match a, b with
  | Some x, Some y => Some (x + y)
  | _, _ => None
  end.

(** ** Strings *)

Module JsString.

Definition is_upper (c : ascii) : bool :=
  let n := N_of_ascii c in (65 <=? n)%N && (n <=? 90)%N.

Definition lower_ascii (c : ascii) : ascii :=
  if is_upper c then ascii_of_N (N_of_ascii c + 32) else c.

(** [String.prototype.toLowerCase] *)
Fixpoint toLowerCase (s : string) : string :=
  match s with
  | EmptyString => EmptyString
  | String c s' => String (lower_ascii c) (toLowerCase s')
  end.

Fixpoint starts_with (p s : string) : bool :=
  match p, s with
  | EmptyString, _ => true
  | String a p', String b s' => if Ascii.eqb a b then starts_with p' s' else false
  | String _ _, EmptyString => false
  end.

(** [String.prototype.includes] *)
Fixpoint includes (s sub : string) : bool :=
  if starts_with sub s then true
  else match s with
       | EmptyString => false
       | String _ s' => includes s' sub
       end.

(** Truthiness of a string: the empty string is falsy. *)
Definition truthy (s : string) : bool :=
  match s with
  | EmptyString => false
  | String _ _ => true
  end.

End JsString.

(** ** Calendar items *)

Inductive ItemType : Type := task | event | goal | reminder | timeblock.

Definition type_name (t : ItemType) : string :=
  match t with
  | task => "task"
  | event => "event"
  | goal => "goal"
  | reminder => "reminder"
  | timeblock => "timeblock"
  end.

Inductive ViewType : Type := month | week | day | list_view.

(** The display item. The optional members of the interface are options;
    [originalItem] is the record the item was made from. *)
Record CalendarItem : Type := {
  id : string;
  title : string;
  description : option string;
  project : option string;
  type : ItemType;
  date : JSDate;
  priority : option string;
  status : option string;
  startTime : option string;
  endTime : option string;
  duration : option Z;
  color : option string;
  originalItem : Obj
}.

(** ** View state (the useState cells of the component) *)

Record ViewState : Type := {
  currentDate : Z;
  selectedDate : Z;
  viewType : ViewType;
  showWorkload : bool;
  isTaskFormOpen : bool;
  isEventFormOpen : bool;
  isTimeBlockFormOpen : bool;
  isFocusModeOpen : bool;
  isRecurrenceFormOpen : bool;
  editingItem : option CalendarItem;
  draggedItem : option CalendarItem;
  draggedOver : option Z;
  searchQuery : string;
  filterProject : string;
  filterType : string
}.

Definition setCurrentDate (f : Z -> Z) (st : ViewState) : ViewState :=
  {| currentDate := f (currentDate st); selectedDate := selectedDate st;
     viewType := viewType st; showWorkload := showWorkload st;
     isTaskFormOpen := isTaskFormOpen st; isEventFormOpen := isEventFormOpen st;
     isTimeBlockFormOpen := isTimeBlockFormOpen st; isFocusModeOpen := isFocusModeOpen st;
     isRecurrenceFormOpen := isRecurrenceFormOpen st;
     editingItem := editingItem st; draggedItem := draggedItem st;
     draggedOver := draggedOver st; searchQuery := searchQuery st;
     filterProject := filterProject st; filterType := filterType st |}.

Definition setDraggedItem (v : option CalendarItem) (st : ViewState) : ViewState :=
  {| currentDate := currentDate st; selectedDate := selectedDate st;
     viewType := viewType st; showWorkload := showWorkload st;
     isTaskFormOpen := isTaskFormOpen st; isEventFormOpen := isEventFormOpen st;
     isTimeBlockFormOpen := isTimeBlockFormOpen st; isFocusModeOpen := isFocusModeOpen st;
     isRecurrenceFormOpen := isRecurrenceFormOpen st;
     editingItem := editingItem st; draggedItem := v;
     draggedOver := draggedOver st; searchQuery := searchQuery st;
     filterProject := filterProject st; filterType := filterType st |}.

Definition setDraggedOver (v : option Z) (st : ViewState) : ViewState :=
  {| currentDate := currentDate st; selectedDate := selectedDate st;
     viewType := viewType st; showWorkload := showWorkload st;
     isTaskFormOpen := isTaskFormOpen st; isEventFormOpen := isEventFormOpen st;
     isTimeBlockFormOpen := isTimeBlockFormOpen st; isFocusModeOpen := isFocusModeOpen st;
     isRecurrenceFormOpen := isRecurrenceFormOpen st;
     editingItem := editingItem st; draggedItem := draggedItem st;
     draggedOver := v; searchQuery := searchQuery st;
     filterProject := filterProject st; filterType := filterType st |}.

(** The view state once the drag state is cleared. *)
Definition dropped (st : ViewState) : ViewState :=
  setDraggedOver None (setDraggedItem None st).

(** The part of the view state the error-handling rule of the page speaks
    of: dates, view type, filters and modal flags. *)
Definition localViewState (st : ViewState)
  : Z * Z * ViewType * (string * string * string) * (bool * bool * bool * bool * bool) :=
  (currentDate st, selectedDate st, viewType st,
   (searchQuery st, filterProject st, filterType st),
   (isTaskFormOpen st, isEventFormOpen st, isTimeBlockFormOpen st,
    isFocusModeOpen st, isRecurrenceFormOpen st)).

(** ** The filter (filteredItems) *)

Section Filter.

Variables searchQuery filterProject filterType : string.

Definition matchesSearch (item : CalendarItem) : bool :=
  JsString.includes (JsString.toLowerCase (title item)) (JsString.toLowerCase searchQuery)
  || match description item with
     | Some d => JsString.includes (JsString.toLowerCase d) (JsString.toLowerCase searchQuery)
     | None => false
     end.

Definition matchesProject (item : CalendarItem) : bool :=
  String.eqb filterProject "all"
  || match project item with
     | Some p => String.eqb p filterProject
     | None => false
     end.

Definition matchesType (item : CalendarItem) : bool :=
  String.eqb filterType "all" || String.eqb (type_name (type item)) filterType.

Definition keepItem (item : CalendarItem) : bool :=
  matchesSearch item && matchesProject item && matchesType item.

Definition filteredItems (calendarItems : list CalendarItem) : list CalendarItem :=
  List.filter keepItem calendarItems.

End Filter.

(** The filtered items of a render: the filter states are read from the
    view state. *)
Definition filteredItemsOf (st : ViewState) (calendarItems : list CalendarItem)
  : list CalendarItem :=
  filteredItems (searchQuery st) (filterProject st) (filterType st) calendarItems.

(** The filter as the specification words it: a case-insensitive
    occurrence of the query in the title or the description, the project
    equal to the project filter and the type equal to the type filter,
    a filter set to "all" letting everything through. *)
Module FilterSpec.






End FilterSpec.

(** ** What the page imports *)

(** The functions the page calls without defining them. The date-fns
    functions take and return valid dates here; what the page does with
    the Invalid Date is written out where it calls them. *)
Class Externals : Type := {
  (* date-fns *)
  parseISO : string -> JSDate;
  format : Z -> string -> string;
  startOfDay : Z -> Z;
  startOfWeek : Z -> Z;
  endOfWeek : Z -> Z;
  startOfMonth : Z -> Z;
  endOfMonth : Z -> Z;
  eachDayOfInterval : Z -> Z -> list Z;
  isSameDay : JSDate -> Z -> bool;
  addWeeks : Z -> Z -> Z;
  subWeeks : Z -> Z -> Z;
  addMonths : Z -> Z -> Z;
  subMonths : Z -> Z -> Z;
  (* Date.prototype.toISOString of a valid date *)
  toISOString : Z -> string;
  (* react-i18next *)
  t : string -> string;
  (* calendarHelpers *)
  autoRolloverTasks : list Obj -> list Obj
}.

(** ** Effects of a handler *)

Inductive StoreOp : Type := updateTask | updateEvent | updateTimeBlock.

Record ToastMsg : Type := {
  toast_title : string;
  toast_description : string;
  toast_destructive : bool
}.

Inductive Effect : Type :=
| Call (op : StoreOp) (target : JSVal) (updates : Obj)
| Toast (m : ToastMsg).

Inductive Exn : Type :=
| RangeError      (* toISOString or format of the Invalid Date *)
| TypeError       (* a member read on undefined *)
| Rejected.       (* a store call that failed *)

(** The state a handler runs in: the view state and the effects so far,
    oldest first. *)
Record World : Type := {
  view : ViewState;
  trace : list Effect
}.

(** Whether a store call fails may depend on everything done before. *)
Definition StoreOracle : Type := list Effect -> StoreOp -> JSVal -> Obj -> bool.

Module Handler.

Definition M (A : Type) : Type := World -> (Exn + A) * World.

Definition ret {A} (a : A) : M A := fun w => (inr a, w).

Definition bind {A B} (m : M A) (k : A -> M B) : M B :=
  fun w => match m w with
           | (inr a, w') => k a w'
           | (inl e, w') => (inl e, w')
           end.

Definition throw {A} (e : Exn) : M A := fun w => (inl e, w).

Definition modify (f : ViewState -> ViewState) : M unit :=
  fun w => (inr tt, {| view := f (view w); trace := trace w |}).

Definition emit (e : Effect) : M unit :=
  fun w => (inr tt, {| view := view w; trace := trace w ++ [e] |}).

(** [try { body } catch (error) { handler } finally { cleanup }] *)
Definition try_catch_finally (body : M unit) (handler : Exn -> M unit)
           (cleanup : M unit) : M unit :=
  fun w =>
    let r := match body w with
             | (inr a, w') => (inr a, w')
             | (inl e, w') => handler e w'
             end in
    match cleanup (snd r) with
    | (inr _, w'') => (fst r, w'')
    | (inl e, w'') => (inl e, w'')
    end.

(** [try { body } catch (error) { handler }] *)
Definition try_catch (body : M unit) (handler : Exn -> M unit) : M unit :=
  try_catch_finally body handler (ret tt).

(** [await op(target, updates)]: the call is made, and a failed call
    throws at the await. *)
Definition await_call (fails : StoreOracle) (op : StoreOp) (target : JSVal)
           (updates : Obj) : M unit :=
  fun w =>
    let w' := {| view := view w; trace := trace w ++ [Call op target updates] |} in
    if fails (trace w) op target updates then (inl Rejected, w') else (inr tt, w').

(** [op(target, updates)] with the promise dropped: the call is made and
    its failure is not seen. *)
Definition fire_call (op : StoreOp) (target : JSVal) (updates : Obj) : M unit :=
  emit (Call op target updates).

(** [l.forEach(f)] *)
Fixpoint forEach {A} (l : list A) (f : A -> M unit) : M unit :=
  match l with
  | [] => ret tt
  | x :: l' => bind (f x) (fun _ => forEach l' f)
  end.

(** [l.filter((x, index) => p)] where the predicate may throw *)
Fixpoint filter_indexed {A} (p : A -> nat -> Exn + bool) (index : nat)
         (l : list A) : Exn + list A :=
  match l with
  | [] => inr []
  | x :: l' =>
      match p x index with
      | inl e => inl e
      | inr b =>
          match filter_indexed p (S index) l' with
          | inl e => inl e
          | inr r => inr (if b then x :: r else r)
          end
      end
  end.

Definition lift {A} (r : Exn + A) : M A :=
  match r with
  | inl e => throw e
  | inr a => ret a
  end.

End Handler.

Import Handler.

Declare Scope handler_scope.
Delimit Scope handler_scope with handler.
Notation "'let*' x := m 'in' k" := (bind m (fun x => k))
  (at level 10, x name, m at level 100, k at level 200) : handler_scope.
Notation "m ;; k" := (bind m (fun _ => k))
  (at level 100, k at level 200, right associativity) : handler_scope.
Local Open Scope handler_scope.

(** What a handler did, started in view state [st] with an empty trace. *)
Definition run {A} (m : M A) (st : ViewState) : (Exn + A) * World :=
  m {| view := st; trace := [] |}.

Definition calls_of (tr : list Effect) : list (StoreOp * JSVal * Obj) :=
  omap (fun e => match e with
                 | Call op target updates => Some (op, target, updates)
                 | Toast _ => None
                 end) tr.

Definition toasts_of (tr : list Effect) : list ToastMsg :=
  omap (fun e => match e with
                 | Toast m => Some m
                 | Call _ _ _ => None
                 end) tr.

Definition escaped {A} (r : (Exn + A) * World) : option Exn :=
  match fst r with
  | inl e => Some e
  | inr _ => None
  end.

(** ** Array.prototype.sort *)

Module JsArray.

(** SortCompare of ECMAScript: a comparator result of NaN counts as +0. *)
Definition sortCompare {A} (comparefn : A -> A -> JSNum) (x y : A) : Z :=
  match comparefn x y with
  | Some v => v
  | None => 0
  end.

Fixpoint sort_insert {A} (comparefn : A -> A -> JSNum) (x : A) (l : list A) : list A :=
  match l with
  | [] => [x]
  | y :: l' =>
      if (sortCompare comparefn x y <=? 0)%Z then x :: y :: l'
      else y :: sort_insert comparefn x l'
  end.

(** [[...l].sort(comparefn)]. The sort of ECMAScript is stable, so for a
    consistent comparator every engine returns the list this stable
    insertion sort returns. *)
Definition sort {A} (comparefn : A -> A -> JSNum) (l : list A) : list A :=
  fold_right (sort_insert comparefn) [] l.

(** [l.slice(0, n)] *)
Definition slice0 {A} (n : nat) (l : list A) : list A := firstn n l.

(** [l.find(p)] *)
Definition find {A} (p : A -> bool) (l : list A) : option A := List.find p l.

End JsArray.

(** ** The page *)

(** A member read [o.k]: undefined when the object has no such member. *)
Definition member (o : Obj) (k : string) : JSVal :=
  match o !! k with
  | Some v => v
  | None => VUndef
  end.

#[global] Instance JSVal_eq_dec : EqDecision JSVal.
Proof. solve_decision. Defined.

(** [a !== b] on primitive values *)
Definition strict_ne (a b : JSVal) : bool := negb (bool_decide (a = b)).

Inductive Render : Type := Mounting | Rerender.

Record MonthCell : Type := {
  cell_day : Z;
  cell_items : list CalendarItem;
  cell_more : option Z
}.

Record ItemRow : Type := {
  row_item : CalendarItem;
  row_start : string
}.

Record WeekColumn : Type := {
  col_day : Z;
  col_rows : list ItemRow
}.

Inductive Rendered : Type :=
| MonthGrid (cells : list MonthCell)
| WeekGrid (columns : list WeekColumn)
| ListRows (rows : list ItemRow)
| NoView.

Fixpoint mapE {A B} (f : A -> Exn + B) (l : list A) : Exn + list B :=
  match l with
  | [] => inr []
  | x :: l' =>
      match f x with
      | inl e => inl e
      | inr y =>
          match mapE f l' with
          | inl e => inl e
          | inr r => inr (y :: r)
          end
      end
  end.

Section Page.

Context {ext : Externals}.
Variable fails : StoreOracle.

(** [parseISO(s!)] for an optional [s]: the non-null assertion checks
    nothing, and parseISO gives the Invalid Date for an argument that is
    no string. *)
Definition parseISO_opt (s : option string) : JSDate :=
  match s with
  | Some x => parseISO x
  | None => None
  end.

(** [d.toISOString()]: a RangeError for the Invalid Date. *)
Definition toISOString_js (d : JSDate) : M string :=
  match d with
  | Some x => ret (toISOString x)
  | None => throw RangeError
  end.

Definition toast (m : ToastMsg) : M unit := emit (Toast m).

(** *** Navigation handlers *)

Definition navigatePrevious (st : ViewState) : ViewState :=
  match viewType st with
  | month => setCurrentDate (fun prev => subMonths prev 1) st
  | week => setCurrentDate (fun prev => subWeeks prev 1) st
  | day => setCurrentDate (fun prev => prev - 24 * 60 * 60 * 1000) st
  | list_view => st
  end.

Definition navigateNext (st : ViewState) : ViewState :=
  match viewType st with
  | month => setCurrentDate (fun prev => addMonths prev 1) st
  | week => setCurrentDate (fun prev => addWeeks prev 1) st
  | day => setCurrentDate (fun prev => prev + 24 * 60 * 60 * 1000) st
  | list_view => st
  end.

(** The triggers of the view selector (the Tabs of the page). *)
Definition offeredViews : list ViewType := [month; week; list_view].

(** *** Drag and drop handlers *)

Definition handleDragStart (item : CalendarItem) : M unit :=
  modify (setDraggedItem (Some item)).

Definition handleDragOver (d : Z) : M unit :=
  modify (setDraggedOver (Some d)).

(** The duration both the event and the time block branch of handleDrop
    compute: end minus start when endTime is truthy, else one hour. *)
Definition dropDuration (item : CalendarItem) : JSNum :=
  match endTime item with
  | Some e =>
      if JsString.truthy e
      then num_sub (getTime (parseISO e)) (getTime (parseISO_opt (startTime item)))
      else Some (60 * 60 * 1000)
  | None => Some (60 * 60 * 1000)
  end.

Definition successToast : ToastMsg :=
  {| toast_title := t "actions.success";
     toast_description := t "calendar.dragToReschedule" +:+ " - " +:+ t "actions.completed";
     toast_destructive := false |}.

Definition rescheduleErrorToast : ToastMsg :=
  {| toast_title := t "actions.error";
     toast_description := t "calendar.rescheduleError";
     toast_destructive := true |}.

Definition updateErrorToast : ToastMsg :=
  {| toast_title := t "actions.error";
     toast_description := t "calendar.updateError";
     toast_destructive := true |}.

(** The toast a drop ends with. *)
Definition outcomeToast (failed : bool) : ToastMsg :=
  if failed then rescheduleErrorToast else successToast.

Definition handleDrop (d : Z) : M unit :=
  fun w =>
    match draggedItem (view w) with
    | None => ret tt w
    | Some item =>
        try_catch_finally
          (let newDate := startOfDay d in
           match type item with
           | task =>
               let* due := toISOString_js (Some newDate) in
               await_call fails updateTask (VStr (id item)) {[ "dueDate" := VStr due ]}
           | event =>
               let duration := dropDuration item in
               let* startDate := toISOString_js (Some newDate) in
               let* endDate := toISOString_js (new_Date (num_add (getTime (Some newDate)) duration)) in
               await_call fails updateEvent (VStr (id item))
                 (<[ "startDate" := VStr startDate ]> {[ "endDate" := VStr endDate ]})
           | timeblock =>
               let duration := dropDuration item in
               let* startT := toISOString_js (Some newDate) in
               let* endT := toISOString_js (new_Date (num_add (getTime (Some newDate)) duration)) in
               await_call fails updateTimeBlock (VStr (id item))
                 (<[ "startTime" := VStr startT ]> {[ "endTime" := VStr endT ]})
           | goal | reminder => ret tt
           end;;
           toast successToast)
          (fun _ => toast rescheduleErrorToast)
          (modify (setDraggedItem None);; modify (setDraggedOver None))
          w
    end.

(** *** Form handlers *)

Definition handleUpdateCalendarItem (calendarItems : list CalendarItem)
           (target : string) (updates : Obj) : M unit :=
  match JsArray.find (fun i => String.eqb (id i) target) calendarItems with
  | None => ret tt
  | Some item =>
      try_catch
        (match type item with
         | task => await_call fails updateTask (VStr target) updates
         | event => await_call fails updateEvent (VStr target) updates
         | timeblock => await_call fails updateTimeBlock (VStr target) updates
         | goal | reminder => ret tt
         end)
        (fun _ => toast updateErrorToast)
  end.

(** *** Auto-rollover on mount *)

Definition tasksToUpdate (tasks : list Obj) : Exn + list Obj :=
  let rolledTasks := autoRolloverTasks tasks in
  filter_indexed
    (fun task index =>
       match tasks !! index with
       | Some original =>
           inr (strict_ne (member task "isAutoRolled") (member original "isAutoRolled"))
       | None => inl TypeError
       end)
    0%nat rolledTasks.

Definition rolloverUpdate (task : Obj) : Obj :=
  <[ "dueDate" := member task "dueDate" ]> {[ "isAutoRolled" := VBool true ]}.

Definition autoRollover (tasks : list Obj) : M unit :=
  let* toUpdate := lift (tasksToUpdate tasks) in
  forEach toUpdate
    (fun task => fire_call updateTask (member task "id") (rolloverUpdate task)).

(** [useEffect(effect, [])]: the effect runs after the render that mounts
    the component and after no other. *)
Definition useEffect_noDeps (r : Render) (effect : M unit) : M unit :=
  match r with
  | Mounting => effect
  | Rerender => ret tt
  end.

(** The effect phase of one render of the page, with the tasks the store
    holds at that render. *)
Definition renderEffects (r : Render) (tasks : list Obj) : M unit :=
  useEffect_noDeps r (autoRollover tasks).

(** A mounted page: the mounting render, then the re-renders. *)
Definition pageLife (tasksAtMount : list Obj) (tasksLater : list (list Obj)) : M unit :=
  renderEffects Mounting tasksAtMount;;
  forEach tasksLater (renderEffects Rerender).

(** *** Render paths *)

Definition dayItems (filtered : list CalendarItem) (d : Z) : list CalendarItem :=
  List.filter (fun item => isSameDay (date item) d) filtered.

Definition monthCell (filtered : list CalendarItem) (d : Z) : MonthCell :=
  let items := dayItems filtered d in
  {| cell_day := d;
     cell_items := JsArray.slice0 3 items;
     cell_more := if (3 <? Z.of_nat (length items))%Z
                  then Some (Z.of_nat (length items) - 3)
                  else None |}.

Definition renderMonthView (st : ViewState) (calendarItems : list CalendarItem)
  : list MonthCell :=
  let monthStart := startOfMonth (currentDate st) in
  let monthEnd := endOfMonth (currentDate st) in
  let calendarStart := startOfWeek monthStart in
  let calendarEnd := endOfWeek monthEnd in
  let calendarDays := eachDayOfInterval calendarStart calendarEnd in
  map (monthCell (filteredItemsOf st calendarItems)) calendarDays.

(** An item drawn with its start time: [format(parseISO(item.startTime!), fmt)],
    a RangeError when the parsed date is the Invalid Date. *)
Definition itemRow (fmt : string) (item : CalendarItem) : Exn + ItemRow :=
  match parseISO_opt (startTime item) with
  | Some start => inr {| row_item := item; row_start := format start fmt |}
  | None => inl RangeError
  end.

Definition weekColumn (filtered : list CalendarItem) (d : Z) : Exn + WeekColumn :=
  match mapE (itemRow "HH:mm") (dayItems filtered d) with
  | inl e => inl e
  | inr rows => inr {| col_day := d; col_rows := rows |}
  end.

Definition renderWeekView (st : ViewState) (calendarItems : list CalendarItem)
  : Exn + list WeekColumn :=
  let weekStart := startOfWeek (currentDate st) in
  let weekEnd := endOfWeek (currentDate st) in
  let weekDays := eachDayOfInterval weekStart weekEnd in
  mapE (weekColumn (filteredItemsOf st calendarItems)) weekDays.

Definition byStartTime (a b : CalendarItem) : JSNum :=
  num_sub (getTime (parseISO_opt (startTime a))) (getTime (parseISO_opt (startTime b))).

Definition sortedItems (st : ViewState) (calendarItems : list CalendarItem)
  : list CalendarItem :=
  JsArray.sort byStartTime (filteredItemsOf st calendarItems).

Definition renderListView (st : ViewState) (calendarItems : list CalendarItem)
  : Exn + list ItemRow :=
  mapE (itemRow "MMM dd, yyyy HH:mm") (sortedItems st calendarItems).

(** The calendar card: one render path per view type, none for [day]. *)
Definition renderCalendar (st : ViewState) (calendarItems : list CalendarItem)
  : Exn + Rendered :=
  match viewType st with
  | month => inr (MonthGrid (renderMonthView st calendarItems))
  | week =>
      match renderWeekView st calendarItems with
      | inl e => inl e
      | inr columns => inr (WeekGrid columns)
      end
  | list_view =>
      match renderListView st calendarItems with
      | inl e => inl e
      | inr rows => inr (ListRows rows)
      end
  | day => inr NoView
  end.

End Page.

(** ** The rest of the page: dates, forms and the project options *)

Definition setSelectedDate (v : Z) (st : ViewState) : ViewState :=
  {| currentDate := currentDate st; selectedDate := v;
     viewType := viewType st; showWorkload := showWorkload st;
     isTaskFormOpen := isTaskFormOpen st; isEventFormOpen := isEventFormOpen st;
     isTimeBlockFormOpen := isTimeBlockFormOpen st; isFocusModeOpen := isFocusModeOpen st;
     isRecurrenceFormOpen := isRecurrenceFormOpen st;
     editingItem := editingItem st; draggedItem := draggedItem st;
     draggedOver := draggedOver st; searchQuery := searchQuery st;
     filterProject := filterProject st; filterType := filterType st |}.

Definition setEditingItem (v : option CalendarItem) (st : ViewState) : ViewState :=
  {| currentDate := currentDate st; selectedDate := selectedDate st;
     viewType := viewType st; showWorkload := showWorkload st;
     isTaskFormOpen := isTaskFormOpen st; isEventFormOpen := isEventFormOpen st;
     isTimeBlockFormOpen := isTimeBlockFormOpen st; isFocusModeOpen := isFocusModeOpen st;
     isRecurrenceFormOpen := isRecurrenceFormOpen st;
     editingItem := v; draggedItem := draggedItem st;
     draggedOver := draggedOver st; searchQuery := searchQuery st;
     filterProject := filterProject st; filterType := filterType st |}.

Definition setIsTaskFormOpen (v : bool) (st : ViewState) : ViewState :=
  {| currentDate := currentDate st; selectedDate := selectedDate st;
     viewType := viewType st; showWorkload := showWorkload st;
     isTaskFormOpen := v; isEventFormOpen := isEventFormOpen st;
     isTimeBlockFormOpen := isTimeBlockFormOpen st; isFocusModeOpen := isFocusModeOpen st;
     isRecurrenceFormOpen := isRecurrenceFormOpen st;
     editingItem := editingItem st; draggedItem := draggedItem st;
     draggedOver := draggedOver st; searchQuery := searchQuery st;
     filterProject := filterProject st; filterType := filterType st |}.

Definition setIsEventFormOpen (v : bool) (st : ViewState) : ViewState :=
  {| currentDate := currentDate st; selectedDate := selectedDate st;
     viewType := viewType st; showWorkload := showWorkload st;
     isTaskFormOpen := isTaskFormOpen st; isEventFormOpen := v;
     isTimeBlockFormOpen := isTimeBlockFormOpen st; isFocusModeOpen := isFocusModeOpen st;
     isRecurrenceFormOpen := isRecurrenceFormOpen st;
     editingItem := editingItem st; draggedItem := draggedItem st;
     draggedOver := draggedOver st; searchQuery := searchQuery st;
     filterProject := filterProject st; filterType := filterType st |}.

Definition setIsTimeBlockFormOpen (v : bool) (st : ViewState) : ViewState :=
  {| currentDate := currentDate st; selectedDate := selectedDate st;
     viewType := viewType st; showWorkload := showWorkload st;
     isTaskFormOpen := isTaskFormOpen st; isEventFormOpen := isEventFormOpen st;
     isTimeBlockFormOpen := v; isFocusModeOpen := isFocusModeOpen st;
     isRecurrenceFormOpen := isRecurrenceFormOpen st;
     editingItem := editingItem st; draggedItem := draggedItem st;
     draggedOver := draggedOver st; searchQuery := searchQuery st;
     filterProject := filterProject st; filterType := filterType st |}.

(** [navigateToday], with [today] the value of [new Date()]. *)
Definition navigateToday (today : Z) (st : ViewState) : ViewState :=
  setSelectedDate today (setCurrentDate (fun _ => today) st).

(** One press of a navigation button. *)
Inductive NavButton : Type := PreviousButton | NextButton.

Definition pressNav {ext : Externals} (b : NavButton) (st : ViewState) : ViewState :=
  match b with
  | PreviousButton => navigatePrevious st
  | NextButton => navigateNext st
  end.

(** [handleCreateTimeBlock(date?, startTime?, endTime?)]; a Date is always
    truthy, so [date || selectedDate] is [date] whenever it is given. *)
Definition handleCreateTimeBlock (d : option Z) (start finish : option string)
           (st : ViewState) : ViewState :=
  setIsTimeBlockFormOpen true
    (setSelectedDate (match d with
                      | Some x => x
                      | None => selectedDate st
                      end)
       (setEditingItem None st)).

Definition handleEditItem (item : CalendarItem) (st : ViewState) : ViewState :=
  let st' := setEditingItem (Some item) st in
  match type item with
  | task => setIsTaskFormOpen true st'
  | event => setIsEventFormOpen true st'
  | timeblock => setIsTimeBlockFormOpen true st'
  | goal | reminder => st'
  end.

(** The onClose handlers of the three forms. *)
Definition taskFormOnClose (st : ViewState) : ViewState :=
  setEditingItem None (setIsTaskFormOpen false st).

Definition eventFormOnClose (st : ViewState) : ViewState :=
  setEditingItem None (setIsEventFormOpen false st).

Definition timeBlockFormOnClose (st : ViewState) : ViewState :=
  setEditingItem None (setIsTimeBlockFormOpen false st).

(** The record a form is given to edit:
    [editingItem?.type === ty ? editingItem.originalItem : undefined]. *)
Definition formRecord (ty : ItemType) (st : ViewState) : option Obj :=
  match editingItem st with
  | Some item =>
      if String.eqb (type_name (type item)) (type_name ty)
      then Some (originalItem item)
      else None
  | None => None
  end.

Definition taskFormTask (st : ViewState) : option Obj := formRecord task st.
Definition eventFormEvent (st : ViewState) : option Obj := formRecord event st.
Definition timeBlockFormTimeBlock (st : ViewState) : option Obj := formRecord timeblock st.

(** [Array.from(new Set(l))]: the values of [l], each once, in the order
    of their first occurrence. *)
Definition array_from_set (l : list string) : list string :=
  fold_left (fun seen x => if existsb (String.eqb x) seen then seen else app seen [x]) l [].

(** [l.filter(Boolean)] on optional strings: undefined and the empty
    string are dropped. *)
Definition filter_Boolean (l : list (option string)) : list string :=
  omap (fun o => match o with
                 | Some s => if JsString.truthy s then Some s else None
                 | None => None
                 end) l.

(** The options of the project filter. *)
Definition projects (calendarItems : list CalendarItem) : list string :=
  array_from_set (filter_Boolean (map project calendarItems)).

(** The type filter lets the user choose "all" or one of these. *)
Definition itemTypes : list ItemType := [task; event; goal; reminder; timeblock].

#[global] Instance ItemType_eq_dec : EqDecision ItemType.
Proof. solve_decision. Defined.

(** The store operation that updates an item of a type; goals and
    reminders have none in this page. *)
Definition storeOpOf (ty : ItemType) : option StoreOp :=
  match ty with
  | task => Some updateTask
  | event => Some updateEvent
  | timeblock => Some updateTimeBlock
  | goal | reminder => None
  end.

(** A sequence of presses of the navigation buttons. *)
Definition pressAll {ext : Externals} (presses : list NavButton) (st : ViewState)
  : ViewState :=
  fold_left (fun s b => pressNav b s) presses st.

(** A drag gesture: the item is picked up, moved over a day and dropped. *)
Definition dragAndDrop {ext : Externals} (fails : StoreOracle) (item : CalendarItem)
           (over target : Z) : M unit :=
  handleDragStart item;; handleDragOver over;; handleDrop fails target.

(** ** A reference instance of the imports: UTC, keys untranslated *)

Module Utc.

Definition msPerDay : Z := 86400000.

(** Days since 1970-01-01 of a civil date, and back. *)
Definition days_from_civil (y m d : Z) : Z :=
  let y' := if (m <=? 2)%Z then y - 1 else y in
  let era := y' / 400 in
  let yoe := y' - era * 400 in
  let mp := (m + 9) mod 12 in
  let doy := (153 * mp + 2) / 5 + d - 1 in
  let doe := yoe * 365 + yoe / 4 - yoe / 100 + doy in
  era * 146097 + doe - 719468.

Definition civil_from_days (z : Z) : Z * Z * Z :=
  let z' := z + 719468 in
  let era := z' / 146097 in
  let doe := z' - era * 146097 in
  let yoe := (doe - doe / 1460 + doe / 36524 - doe / 146096) / 365 in
  let doy := doe - (365 * yoe + yoe / 4 - yoe / 100) in
  let mp := (5 * doy + 2) / 153 in
  let d := doy - (153 * mp + 2) / 5 + 1 in
  let m := if (mp <? 10)%Z then mp + 3 else mp - 9 in
  ((if (m <=? 2)%Z then yoe + era * 400 + 1 else yoe + era * 400), m, d).

Definition days_in_month (y m : Z) : Z :=
  let '(y', m') := if (m =? 12)%Z then (y + 1, 1) else (y, m + 1) in
  days_from_civil y' m' 1 - days_from_civil y m 1.

Definition digit (n : Z) : ascii := ascii_of_N (48 + Z.to_N (n mod 10)).

Fixpoint padded (width : nat) (n : Z) : string :=
  match width with
  | O => ""
  | S w => padded w (n / 10) +:+ String (digit n) ""
  end.

Definition digit_value (c : ascii) : option Z :=
  let n := N_of_ascii c in
  if (48 <=? n)%N && (n <=? 57)%N then Some (Z.of_N n - 48) else None.

Fixpoint number_of (acc : Z) (s : string) : option Z :=
  match s with
  | EmptyString => Some acc
  | String c s' =>
      match digit_value c with
      | Some v => number_of (acc * 10 + v) s'
      | None => None
      end
  end.

Definition field (s : string) (pos len : nat) : option Z :=
  number_of 0 (String.substring pos len s).

Definition utc_toISOString (ms : Z) : string :=
  let days := ms / msPerDay in
  let rest := ms mod msPerDay in
  let '(y, m, d) := civil_from_days days in
  padded 4 y +:+ "-" +:+ padded 2 m +:+ "-" +:+ padded 2 d +:+ "T"
  +:+ padded 2 (rest / 3600000) +:+ ":" +:+ padded 2 (rest / 60000 mod 60) +:+ ":"
  +:+ padded 2 (rest / 1000 mod 60) +:+ "." +:+ padded 3 (rest mod 1000) +:+ "Z".

(** Reads the complete UTC form [YYYY-MM-DDTHH:mm:ss.sssZ] only; every
    other string gives the Invalid Date. *)
Definition utc_parseISO (s : string) : JSDate :=
  if negb (Nat.eqb (String.length s) 24) then None
  else if negb (String.eqb (String.substring 4 1 s +:+ String.substring 7 1 s
                            +:+ String.substring 10 1 s +:+ String.substring 13 1 s
                            +:+ String.substring 16 1 s +:+ String.substring 19 1 s
                            +:+ String.substring 23 1 s) "--T::.Z") then None
  else
    match field s 0 4, field s 5 2, field s 8 2,
          field s 11 2, field s 14 2, field s 17 2, field s 20 3 with
    | Some y, Some m, Some d, Some hh, Some mm, Some ss, Some ms =>
        if ((1 <=? m) && (m <=? 12) && (1 <=? d) && (d <=? days_in_month y m)
            && (hh <? 24) && (mm <? 60) && (ss <? 60))%Z
        then Some (days_from_civil y m d * msPerDay + hh * 3600000 + mm * 60000
                   + ss * 1000 + ms)
        else None
    | _, _, _, _, _, _, _ => None
    end.

Definition utc_startOfDay (x : Z) : Z := x - x mod msPerDay.

(** Weeks start on Sunday; 1970-01-01 was a Thursday. *)
Definition utc_startOfWeek (x : Z) : Z :=
  let days := x / msPerDay in
  (days - (days + 4) mod 7) * msPerDay.

Definition utc_endOfWeek (x : Z) : Z := utc_startOfWeek x + 7 * msPerDay - 1.

Definition utc_startOfMonth (x : Z) : Z :=
  let '(y, m, _) := civil_from_days (x / msPerDay) in
  days_from_civil y m 1 * msPerDay.

Definition utc_endOfMonth (x : Z) : Z :=
  let '(y, m, _) := civil_from_days (x / msPerDay) in
  (days_from_civil y m 1 + days_in_month y m) * msPerDay - 1.

Definition utc_eachDayOfInterval (a b : Z) : list Z :=
  map (fun i => (a / msPerDay + Z.of_nat i) * msPerDay)
      (seq 0 (Z.to_nat (b / msPerDay - a / msPerDay + 1))).

Definition utc_isSameDay (a : JSDate) (b : Z) : bool :=
  match a with
  | Some x => (x / msPerDay =? b / msPerDay)%Z
  | None => false
  end.

Definition utc_addWeeks (x n : Z) : Z := x + n * 7 * msPerDay.

(** The day of the month is kept, or clamped to the last day of the
    target month. *)
Definition utc_addMonths (x n : Z) : Z :=
  let '(y, m, d) := civil_from_days (x / msPerDay) in
  let total := y * 12 + (m - 1) + n in
  let y' := total / 12 in
  let m' := total mod 12 + 1 in
  days_from_civil y' m' (Z.min d (days_in_month y' m')) * msPerDay + x mod msPerDay.

(** Modelled from the spec: autoRolloverTasks of calendarHelpers, which
    is not among the sources: "rule that advances an overdue task's due
    date forward to the current day". A task whose dueDate parses to a
    time before the start of [today] gets the start of [today] as its
    dueDate and its isAutoRolled member set. *)
Definition rollover (today : Z) (task : Obj) : Obj :=
  match task !! "dueDate" with
  | Some (VStr due) =>
      match utc_parseISO due with
      | Some x =>
          if (x <? utc_startOfDay today)%Z
          then <[ "dueDate" := VStr (utc_toISOString (utc_startOfDay today)) ]>
                 (<[ "isAutoRolled" := VBool true ]> task)
          else task
      | None => task
      end
  | _ => task
  end.

Definition externals (today : Z) : Externals :=
  {| parseISO := utc_parseISO;
     format := fun x _ => utc_toISOString x;
     startOfDay := utc_startOfDay;
     startOfWeek := utc_startOfWeek;
     endOfWeek := utc_endOfWeek;
     startOfMonth := utc_startOfMonth;
     endOfMonth := utc_endOfMonth;
     eachDayOfInterval := utc_eachDayOfInterval;
     isSameDay := utc_isSameDay;
     addWeeks := utc_addWeeks;
     subWeeks := fun x n => utc_addWeeks x (- n);
     addMonths := utc_addMonths;
     subMonths := fun x n => utc_addMonths x (- n);
     toISOString := utc_toISOString;
     t := fun key => key;
     autoRolloverTasks := map (rollover today) |}.

End Utc.


(** ** Sorting by start time, as the specification words it *)

Module ListSpec.

Section Order.

Context {ext : Externals}.


Definition has_start (item : CalendarItem) : Prop :=
  exists s x, startTime item = Some s /\ parseISO s = Some x.

End Order.

End ListSpec.

(** ** The auto-rollover pass, as the specification words it *)

Module RolloverSpec.

(** The rolled tasks whose isAutoRolled flag differs from the flag of the
    original task at the same index, in order. *)
Fixpoint differing (rolled original : list Obj) : list Obj :=
  match rolled, original with
  | r :: rolled', o :: original' =>
      if decide (member r "isAutoRolled" = member o "isAutoRolled")
      then differing rolled' original'
      else r :: differing rolled' original'
  | _, _ => []
  end.

End RolloverSpec.

(** ** Sample data *)

Module Sample.

(** 2024-03-10T09:00:00.000Z, a Sunday. *)
Definition today : Z := 1710061200000.

Definition ext : Externals := Utc.externals today.

Definition item (i : string) (ty : ItemType) (d : JSDate)
           (start finish : option string) : CalendarItem :=
  {| id := i; title := "Item " +:+ i; description := None; project := None;
     type := ty; date := d; priority := None; status := None;
     startTime := start; endTime := finish; duration := None; color := None;
     originalItem := ∅ |}.

Definition review : CalendarItem :=
  item "e1" event (Some today)
       (Some "2024-03-10T09:00:00.000Z") (Some "2024-03-10T10:30:00.000Z").

Definition report : CalendarItem :=
  item "t1" task (Some today) (Some "2024-03-10T08:00:00.000Z") None.

Definition marathon : CalendarItem :=
  item "g1" goal (Some today) (Some "2024-03-10T07:00:00.000Z") None.


Definition initial : ViewState :=
  {| currentDate := today; selectedDate := today; viewType := month;
     showWorkload := false; isTaskFormOpen := false; isEventFormOpen := false;
     isTimeBlockFormOpen := false; isFocusModeOpen := false;
     isRecurrenceFormOpen := false; editingItem := None; draggedItem := None;
     draggedOver := None; searchQuery := ""; filterProject := "all";
     filterType := "all" |}.

Definition showing (v : ViewType) : ViewState :=
  {| currentDate := today; selectedDate := today; viewType := v;
     showWorkload := false; isTaskFormOpen := false; isEventFormOpen := false;
     isTimeBlockFormOpen := false; isFocusModeOpen := false;
     isRecurrenceFormOpen := false; editingItem := None; draggedItem := None;
     draggedOver := None; searchQuery := ""; filterProject := "all";
     filterType := "all" |}.

Definition dragging (i : CalendarItem) : ViewState :=
  setDraggedOver (Some today) (setDraggedItem (Some i) initial).

(** 2024-03-12T15:20:00.000Z, the day an item is dropped on. *)
Definition target : Z := 1710256800000.

Definition store_ok : StoreOracle := fun _ _ _ _ => false.
Definition store_down : StoreOracle := fun _ _ _ _ => true.

Definition overdue : Obj :=
  <[ "id" := VStr "t1" ]> (<[ "dueDate" := VStr "2024-03-01T00:00:00.000Z" ]>
  {[ "isAutoRolled" := VBool false ]}).

Definition upcoming : Obj :=
  <[ "id" := VStr "t3" ]> (<[ "dueDate" := VStr "2024-03-20T00:00:00.000Z" ]>
  {[ "isAutoRolled" := VBool false ]}).

Definition tasks : list Obj := [overdue; upcoming].

Definition items : list CalendarItem := [review; report; marathon].

Definition inProject (p : string) (i : CalendarItem) : CalendarItem :=
  {| id := id i; title := title i; description := description i; project := Some p;
     type := type i; date := date i; priority := priority i; status := status i;
     startTime := startTime i; endTime := endTime i; duration := duration i;
     color := color i; originalItem := originalItem i |}.

(** An event with a start time and no end time. *)
Definition standup : CalendarItem :=
  item "e2" event (Some today) (Some "2024-03-10T09:00:00.000Z") None.


(** The imports with another rollover rule. *)
Definition withRollover (rule : list Obj -> list Obj) : Externals :=
  {| parseISO := parseISO (Externals := ext);
     format := format (Externals := ext);
     startOfDay := startOfDay (Externals := ext);
     startOfWeek := startOfWeek (Externals := ext);
     endOfWeek := endOfWeek (Externals := ext);
     startOfMonth := startOfMonth (Externals := ext);
     endOfMonth := endOfMonth (Externals := ext);
     eachDayOfInterval := eachDayOfInterval (Externals := ext);
     isSameDay := isSameDay (Externals := ext);
     addWeeks := addWeeks (Externals := ext);
     subWeeks := subWeeks (Externals := ext);
     addMonths := addMonths (Externals := ext);
     subMonths := subMonths (Externals := ext);
     toISOString := toISOString (Externals := ext);
     t := t (Externals := ext);
     autoRolloverTasks := rule |}.

(** A rule that returns every task twice. *)
Definition ext_doubling : Externals := withRollover (fun l => app l l).

(** A rule that moves every due date and leaves the flags alone. *)
Definition ext_redating : Externals :=
  withRollover (map (fun task : Obj =>
                       <[ "dueDate" := VStr "2024-03-10T00:00:00.000Z" ]> task)).

(** A time block whose start time is no date. *)
Definition vague : CalendarItem :=
  item "b1" timeblock (Some today) (Some "after lunch") (Some "2024-03-10T15:00:00.000Z").

End Sample.

(** * Properties *)

(** ** Strings *)

Section StringFacts.

Import JsString FilterSpec.

Lemma append_nil (s : string) : "" +:+ s = s.
Proof. reflexivity. Qed.






Lemma includes_empty (s : string) : includes s "" = true.
Proof. destruct s; reflexivity. Qed.





End StringFacts.

(** ** The filter *)

Section FilterFacts.

Import FilterSpec.


Lemma matchesProject_spec (fp : string) (item : CalendarItem) :
  matchesProject fp item = true <-> fp = "all" \/ project item = Some fp.
Proof.
  unfold matchesProject. rewrite orb_true_iff, String.eqb_eq.
  destruct (project item) as [p|].
  - rewrite String.eqb_eq. split; intros [H|H]; auto.
    + right. now subst.
    + right. now injection H.
  - split; intros [H|H]; auto; discriminate.
Qed.



Lemma keepItem_unfiltered (item : CalendarItem) : keepItem "" "all" "all" item = true.
Proof.
  unfold keepItem, matchesSearch, matchesProject, matchesType. simpl.
  now rewrite includes_empty.
Qed.


Lemma filter_all {A} (p : A -> bool) (l : list A) :
  (forall x, p x = true) -> List.filter p l = l.
Proof.
  intros H. induction l as [|x l IH]; simpl; [reflexivity |].
  now rewrite H, IH.
Qed.


End FilterFacts.

(** ** Navigation *)

Section NavigationFacts.

Context {ext : Externals}.

Lemma setCurrentDate_frame (f : Z -> Z) (st : ViewState) :
  localViewState (setCurrentDate f st)
  = (f (currentDate st), selectedDate st, viewType st,
     (searchQuery st, filterProject st, filterType st),
     (isTaskFormOpen st, isEventFormOpen st, isTimeBlockFormOpen st,
      isFocusModeOpen st, isRecurrenceFormOpen st)).
Proof. reflexivity. Qed.

(** C3, as the code has it. navigateNext moves currentDate forward by
    one month in the month view, one week in the week view and 24 hours
    in the day view, and navigatePrevious moves it back by as much; in
    the list view both leave currentDate as it is. Nothing but
    currentDate changes. *)
Theorem navigate_by_view (st : ViewState) :
  match viewType st with
  | month =>
      currentDate (navigateNext st) = addMonths (currentDate st) 1
      /\ currentDate (navigatePrevious st) = subMonths (currentDate st) 1
  | week =>
      currentDate (navigateNext st) = addWeeks (currentDate st) 1
      /\ currentDate (navigatePrevious st) = subWeeks (currentDate st) 1
  | day =>
      currentDate (navigateNext st) = currentDate st + 86400000
      /\ currentDate (navigatePrevious st) = currentDate st - 86400000
  | list_view =>
      currentDate (navigateNext st) = currentDate st
      /\ currentDate (navigatePrevious st) = currentDate st
  end
  /\ navigateNext st = setCurrentDate (fun _ => currentDate (navigateNext st)) st
  /\ navigatePrevious st = setCurrentDate (fun _ => currentDate (navigatePrevious st)) st.
Proof.
  unfold navigateNext, navigatePrevious.
  destruct st as [cd sd v sw tf ef bf ff rf ei di dov q fp ft]. simpl.
  destruct v; repeat split.
Qed.

End NavigationFacts.

(** C3 fails in the list view, which the view selector offers: there
    neither handler moves the displayed period. *)
Lemma navigate_list_view_stays :
  In (viewType (Sample.showing list_view)) offeredViews
  /\ currentDate (navigateNext (ext := Sample.ext) (Sample.showing list_view))
     = currentDate (Sample.showing list_view)
  /\ currentDate (navigatePrevious (ext := Sample.ext) (Sample.showing list_view))
     = currentDate (Sample.showing list_view).
Proof. split; [simpl; tauto | split; reflexivity]. Qed.

(** ** Dropping a dragged item *)

Section DropFacts.

Context {ext : Externals}.
Variable fails : StoreOracle.

Lemma dropped_frame (st : ViewState) : localViewState (dropped st) = localViewState st.
Proof. reflexivity. Qed.

Lemma handleDrop_idle (st : ViewState) (d : Z) :
  draggedItem st = None ->
  run (handleDrop fails d) st = (inr tt, {| view := st; trace := [] |}).
Proof. intros H. unfold run, handleDrop. simpl. now rewrite H. Qed.

Lemma handleDrop_task (st : ViewState) (item : CalendarItem) (d : Z) :
  draggedItem st = Some item -> type item = task ->
  let updates : Obj := {[ "dueDate" := VStr (toISOString (startOfDay d)) ]} in
  run (handleDrop fails d) st
  = (inr tt,
     {| view := dropped st;
        trace := [Call updateTask (VStr (id item)) updates;
                  Toast (outcomeToast (fails [] updateTask (VStr (id item)) updates))] |}).
Proof.
  intros H Ht. unfold run, handleDrop. simpl. rewrite H, Ht.
  unfold try_catch_finally, bind, await_call, toISOString_js, ret, toast, emit, modify.
  simpl. destruct (fails _ _ _ _); reflexivity.
Qed.

Ltac run_handler :=
  unfold try_catch, try_catch_finally, bind, await_call, toISOString_js,
    ret, throw, toast, emit, modify; simpl.

Lemma handleDrop_untimed (st : ViewState) (item : CalendarItem) (d : Z) :
  draggedItem st = Some item -> type item = goal \/ type item = reminder ->
  run (handleDrop fails d) st
  = (inr tt, {| view := dropped st; trace := [Toast successToast] |}).
Proof.
  intros H [Ht|Ht]; unfold run, handleDrop; simpl; rewrite H, Ht; reflexivity.
Qed.

Lemma handleDrop_event (st : ViewState) (item : CalendarItem) (d : Z) :
  draggedItem st = Some item -> type item = event ->
  run (handleDrop fails d) st
  = match dropDuration item with
    | Some du =>
        let updates : Obj :=
          <[ "startDate" := VStr (toISOString (startOfDay d)) ]>
            {[ "endDate" := VStr (toISOString (startOfDay d + du)) ]} in
        (inr tt,
         {| view := dropped st;
            trace := [Call updateEvent (VStr (id item)) updates;
                      Toast (outcomeToast
                               (fails [] updateEvent (VStr (id item)) updates))] |})
    | None =>
        (inr tt, {| view := dropped st; trace := [Toast rescheduleErrorToast] |})
    end.
Proof.
  intros H Ht. unfold run, handleDrop. simpl. rewrite H, Ht.
  destruct (dropDuration item) as [du|]; run_handler; [| reflexivity].
  destruct (fails _ _ _ _); reflexivity.
Qed.

Lemma handleDrop_timeblock (st : ViewState) (item : CalendarItem) (d : Z) :
  draggedItem st = Some item -> type item = timeblock ->
  run (handleDrop fails d) st
  = match dropDuration item with
    | Some du =>
        let updates : Obj :=
          <[ "startTime" := VStr (toISOString (startOfDay d)) ]>
            {[ "endTime" := VStr (toISOString (startOfDay d + du)) ]} in
        (inr tt,
         {| view := dropped st;
            trace := [Call updateTimeBlock (VStr (id item)) updates;
                      Toast (outcomeToast
                               (fails [] updateTimeBlock (VStr (id item)) updates))] |})
    | None =>
        (inr tt, {| view := dropped st; trace := [Toast rescheduleErrorToast] |})
    end.
Proof.
  intros H Ht. unfold run, handleDrop. simpl. rewrite H, Ht.
  destruct (dropDuration item) as [du|]; run_handler; [| reflexivity].
  destruct (fails _ _ _ _); reflexivity.
Qed.


(** What a drop on a dragged item comes to, whatever the item: no
    exception leaves the handler, the drag state is cleared and the rest
    of the view state kept, and the trace is one toast, preceded by at
    most one store call, which addresses the dragged item. *)
Lemma handleDrop_shape (st : ViewState) (item : CalendarItem) (d : Z) :
  draggedItem st = Some item ->
  exists tr,
    run (handleDrop fails d) st = (inr tt, {| view := dropped st; trace := tr |})
    /\ (tr = [Toast successToast] \/ tr = [Toast rescheduleErrorToast]
        \/ exists op updates,
            tr = [Call op (VStr (id item)) updates;
                  Toast (outcomeToast (fails [] op (VStr (id item)) updates))]).
Proof.
  intros H. destruct (type item) eqn:Ht.
  - eexists. split; [apply (handleDrop_task _ _ _ H Ht) |]. right. right. eauto.
  - rewrite (handleDrop_event _ _ _ H Ht).
    destruct (dropDuration item); eexists; (split; [reflexivity |]);
      [right; right; eauto | right; now left].
  - eexists. split; [apply (handleDrop_untimed _ _ _ H); auto |]. now left.
  - eexists. split; [apply (handleDrop_untimed _ _ _ H); auto |]. now left.
  - rewrite (handleDrop_timeblock _ _ _ H Ht).
    destruct (dropDuration item); eexists; (split; [reflexivity |]);
      [right; right; eauto | right; now left].
Qed.

Lemma handleUpdateCalendarItem_shape (st : ViewState)
      (calendarItems : list CalendarItem) (target : string) (updates : Obj) :
  exists tr,
    run (handleUpdateCalendarItem fails calendarItems target updates) st
    = (inr tt, {| view := st; trace := tr |})
    /\ (tr = []
        \/ exists op,
            tr = Call op (VStr target) updates
                 :: (if fails [] op (VStr target) updates
                     then [Toast updateErrorToast] else [])).
Proof.
  unfold run, handleUpdateCalendarItem.
  destruct (JsArray.find _ calendarItems) as [item|]; [| eexists; split; eauto].
  destruct (type item); run_handler;
    try (eexists; split; [reflexivity | now left]);
    destruct (fails _ _ _ _) eqn:E; eexists; (split; [reflexivity |]);
    right; eexists; rewrite E; reflexivity.
Qed.


(** C4. When the store call of a drop or of handleUpdateCalendarItem
    fails, the failure is caught and answered with the error toast; no
    exception leaves either handler, and the current date, the selected
    date, the view type, the filters and the modal flags are as before. *)
Theorem store_failure_caught (st : ViewState) (d : Z)
        (calendarItems : list CalendarItem) (target : string) (updates : Obj) :
  let drop := run (handleDrop fails d) st in
  let save := run (handleUpdateCalendarItem fails calendarItems target updates) st in
  (escaped drop = None
   /\ localViewState (view (snd drop)) = localViewState st
   /\ forall op tg u,
       In (Call op tg u) (trace (snd drop)) -> fails [] op tg u = true ->
       toasts_of (trace (snd drop)) = [rescheduleErrorToast])
  /\ (escaped save = None
      /\ localViewState (view (snd save)) = localViewState st
      /\ forall op tg u,
          In (Call op tg u) (trace (snd save)) -> fails [] op tg u = true ->
          toasts_of (trace (snd save)) = [updateErrorToast]).
Proof.
  intros drop save. subst drop save. split.
  - destruct (draggedItem st) as [item|] eqn:H.
    + destruct (handleDrop_shape st item d H) as (tr & -> & [->|[->|(op & u & ->)]]);
        simpl; repeat split; intros op' tg u' Hin Hf;
        repeat (destruct Hin as [Hin|Hin]; try discriminate; try contradiction).
      injection Hin as <- <- <-. now rewrite Hf.
    + rewrite (handleDrop_idle st d H). simpl. repeat split.
      intros ? ? ? [].
  - destruct (handleUpdateCalendarItem_shape st calendarItems target updates)
      as (tr & -> & [->|(op & ->)]); simpl; repeat split.
    + intros ? ? ? [].
    + intros op' tg u' Hin Hf. destruct Hin as [[= <- <- <-]|Hin].
      * now rewrite Hf.
      * destruct (fails [] op (VStr target) updates); simpl in Hin;
          [destruct Hin as [Hin|Hin]; [discriminate | contradiction] | contradiction].
Qed.

(** C7. A drop and handleUpdateCalendarItem each make at most one store
    call, and whatever follows the first effect of either is no store
    call: a call that failed is not made again. *)
Theorem no_retry (st : ViewState) (d : Z)
        (calendarItems : list CalendarItem) (target : string) (updates : Obj) :
  let drop := trace (snd (run (handleDrop fails d) st)) in
  let save :=
    trace (snd (run (handleUpdateCalendarItem fails calendarItems target updates) st)) in
  (length (calls_of drop) <= 1)%nat /\ calls_of (tl drop) = []
  /\ (length (calls_of save) <= 1)%nat /\ calls_of (tl save) = [].
Proof.
  intros drop save. subst drop save.
  assert (Hdrop : let tr := trace (snd (run (handleDrop fails d) st)) in
                  (length (calls_of tr) <= 1)%nat /\ calls_of (tl tr) = []).
  { destruct (draggedItem st) as [item|] eqn:H.
    - destruct (handleDrop_shape st item d H) as (tr & -> & [->|[->|(op & u & ->)]]);
        simpl; split; auto.
    - rewrite (handleDrop_idle st d H). simpl. auto. }
  destruct Hdrop as [H1 H2]. split; [exact H1 | split; [exact H2 |]].
  destruct (handleUpdateCalendarItem_shape st calendarItems target updates)
    as (tr & -> & [->|(op & ->)]); simpl; [auto |].
  destruct (fails [] op (VStr target) updates); simpl; auto.
Qed.

(** C10. With no item dragged a drop does nothing at all. With a goal
    or a reminder dragged it makes no store call, raises the success
    toast and clears the drag state. *)
Theorem handleDrop_without_update (st : ViewState) (d : Z) :
  (draggedItem st = None ->
   run (handleDrop fails d) st = (inr tt, {| view := st; trace := [] |}))
  /\ (forall item,
         draggedItem st = Some item -> type item = goal \/ type item = reminder ->
         let out := run (handleDrop fails d) st in
         calls_of (trace (snd out)) = []
         /\ toasts_of (trace (snd out)) = [successToast]
         /\ draggedItem (view (snd out)) = None
         /\ draggedOver (view (snd out)) = None).
Proof.
  split.
  - apply handleDrop_idle.
  - intros item H Ht out. subst out.
    rewrite (handleDrop_untimed st item d H Ht). simpl. auto.
Qed.

End DropFacts.


(** The store down: the drop of a task ends with the error toast. *)
Lemma store_failure_caught_report :
  toasts_of (trace (snd (run (handleDrop (ext := Sample.ext) Sample.store_down Sample.target)
                             (Sample.dragging Sample.report))))
  = [rescheduleErrorToast (ext := Sample.ext)].
Proof.
  eapply (proj1 (store_failure_caught (ext := Sample.ext) Sample.store_down
                   (Sample.dragging Sample.report) Sample.target [] "" ∅)).
  - vm_compute. left. reflexivity.
  - reflexivity.
Defined.

(** Nothing dragged, and a goal dragged. *)
Lemma handleDrop_without_update_goal :
  run (handleDrop (ext := Sample.ext) Sample.store_ok Sample.target) Sample.initial
  = (inr tt, {| view := Sample.initial; trace := [] |})
  /\ calls_of (trace (snd (run (handleDrop (ext := Sample.ext) Sample.store_ok Sample.target)
                               (Sample.dragging Sample.marathon)))) = [].
Proof.
  split.
  - apply (proj1 (handleDrop_without_update (ext := Sample.ext) Sample.store_ok
                    Sample.initial Sample.target)).
    reflexivity.
  - apply (proj2 (handleDrop_without_update (ext := Sample.ext) Sample.store_ok
                    (Sample.dragging Sample.marathon) Sample.target) Sample.marathon).
    + reflexivity.
    + left. reflexivity.
Defined.

(** ** Auto-rollover on mount *)

Section RolloverFacts.

Context {ext : Externals}.

Import RolloverSpec.

Lemma forEach_fire_call (l : list Obj) (target : Obj -> JSVal) (updates : Obj -> Obj)
        (w : World) :
  forEach l (fun task => fire_call updateTask (target task) (updates task)) w
  = (inr tt,
     {| view := view w;
        trace := trace w ++ map (fun task => Call updateTask (target task) (updates task)) l |}).
Proof.
  revert w. induction l as [|task l IH]; intros w; simpl.
  - unfold ret. rewrite app_nil_r. now destruct w.
  - unfold bind, fire_call, emit. rewrite IH. simpl. now rewrite <- app_assoc.
Qed.

Lemma forEach_rerender (later : list (list Obj)) (w : World) :
  forEach later (renderEffects Rerender) w = (inr tt, w).
Proof.
  induction later as [|tasks later IH]; simpl; [reflexivity |].
  unfold bind. simpl. exact IH.
Qed.

Lemma filter_indexed_differing (tasks rolled : list Obj) (i : nat) :
  (length rolled <= length (drop i tasks))%nat ->
  filter_indexed
    (fun task index =>
       match tasks !! index with
       | Some original =>
           inr (strict_ne (member task "isAutoRolled") (member original "isAutoRolled"))
       | None => inl TypeError
       end) i rolled
  = inr (differing rolled (drop i tasks)).
Proof.
  revert i. induction rolled as [|r rolled IH]; intros i Hlen; simpl.
  - reflexivity.
  - destruct (tasks !! i) as [o|] eqn:Ho.
    + rewrite (drop_S _ _ _ Ho) in Hlen |- *. simpl in Hlen.
      rewrite IH by lia. unfold strict_ne.
      destruct (decide (member r "isAutoRolled" = member o "isAutoRolled")) as [E|E].
      * now rewrite bool_decide_eq_true_2.
      * now rewrite bool_decide_eq_false_2.
    + apply lookup_ge_None in Ho. rewrite drop_ge in Hlen by exact Ho.
      simpl in Hlen. lia.
Qed.

Lemma differing_index (rolled original : list Obj) (task : Obj) :
  In task (differing rolled original)
  <-> exists i o,
      rolled !! i = Some task /\ original !! i = Some o
      /\ member task "isAutoRolled" <> member o "isAutoRolled".
Proof.
  revert original. induction rolled as [|r rolled IH]; intros [|o original]; simpl.
  - split; [contradiction | now intros (i & o & [=] & _)].
  - split; [contradiction | now intros (i & o' & [=] & _)].
  - split; [contradiction | now intros (i & o' & _ & [=] & _)].
  - destruct (decide (member r "isAutoRolled" = member o "isAutoRolled")) as [E|E].
    + rewrite IH. split.
      * intros (i & o' & ? & ? & ?). now exists (S i), o'.
      * intros ([|i] & o' & Hr & Ho & Hne); simpl in *.
        -- injection Hr as ->. injection Ho as ->. contradiction.
        -- now exists i, o'.
    + simpl. rewrite IH. split.
      * intros [->|(i & o' & ? & ? & ?)].
        -- now exists 0%nat, o.
        -- now exists (S i), o'.
      * intros ([|i] & o' & Hr & Ho & Hne); simpl in *.
        -- left. now injection Hr.
        -- right. now exists i, o'.
Qed.

(** C6. Mounting the page, with the rollover rule returning no more
    tasks than it was given, makes one updateTask call for each rolled
    task whose isAutoRolled flag differs from that of the original task at
    the same index, in order, and no other call; the call is addressed to
    the rolled task's id and carries its dueDate and isAutoRolled set to
    true, and nothing else. The renders after the mount add no call. *)
Theorem autoRollover_on_mount (st : ViewState) (tasks : list Obj)
          (later : list (list Obj)) :
  (length (autoRolloverTasks tasks) <= length tasks)%nat ->
  let flagged := differing (autoRolloverTasks tasks) tasks in
  run (pageLife tasks later) st
  = (inr tt,
     {| view := st;
        trace := map (fun task => Call updateTask (member task "id") (rolloverUpdate task))
                     flagged |})
  /\ (forall task,
         In task flagged
         <-> exists i original,
             autoRolloverTasks tasks !! i = Some task /\ tasks !! i = Some original
             /\ member task "isAutoRolled" <> member original "isAutoRolled")
  /\ (forall task,
         rolloverUpdate task !! "dueDate" = Some (member task "dueDate")
         /\ rolloverUpdate task !! "isAutoRolled" = Some (VBool true)
         /\ dom (rolloverUpdate task) = ({[ "dueDate"; "isAutoRolled" ]} : gset string)).
Proof.
  intros Hlen flagged. subst flagged. split; [| split].
  - unfold run, pageLife, renderEffects, useEffect_noDeps, autoRollover, tasksToUpdate.
    rewrite (filter_indexed_differing tasks (autoRolloverTasks tasks) 0)
      by (rewrite drop_0; exact Hlen).
    rewrite drop_0. unfold bind at 1. unfold bind at 1. simpl.
    rewrite forEach_fire_call. simpl. now rewrite forEach_rerender.
  - intros task. apply differing_index.
  - intros task. unfold rolloverUpdate. split; [| split].
    + now rewrite lookup_insert_eq.
    + rewrite lookup_insert_ne by discriminate. now rewrite lookup_singleton_eq.
    + rewrite dom_insert_L, dom_singleton_L. reflexivity.
Qed.

End RolloverFacts.

(** Two tasks, the first overdue: mounting the page rolls the first one
    to the start of today, and the re-render after it does nothing. *)
Lemma autoRollover_on_mount_overdue :
  calls_of (trace (snd (run (pageLife (ext := Sample.ext) Sample.tasks [Sample.tasks])
                            Sample.initial)))
  = [(updateTask, VStr "t1",
      <[ "dueDate" := VStr "2024-03-10T00:00:00.000Z" ]> {[ "isAutoRolled" := VBool true ]})].
Proof.
  assert (Hlen : (length (autoRolloverTasks (Externals := Sample.ext) Sample.tasks)
                  <= length Sample.tasks)%nat)
    by (vm_compute; lia).
  pose proof (autoRollover_on_mount (ext := Sample.ext) Sample.initial Sample.tasks
                [Sample.tasks] Hlen) as H.
  cbv zeta in H. destruct H as (H & _ & _).
  rewrite H. vm_compute. reflexivity.
Defined.

(** ** Render paths *)

Section RenderFacts.

Context {ext : Externals}.

Import ListSpec.

Lemma dayItems_In (filtered : list CalendarItem) (d : Z) (item : CalendarItem) :
  In item (dayItems filtered d) <-> In item filtered /\ isSameDay (date item) d = true.
Proof. unfold dayItems. apply filter_In. Qed.


(** *** The list view *)



Lemma has_start_parse (item : CalendarItem) :
  has_start item <-> exists x, parseISO_opt (startTime item) = Some x.
Proof.
  unfold has_start, parseISO_opt. split.
  - intros (s & x & -> & H). eauto.
  - destruct (startTime item) as [s|]; intros (x & H); [eauto | discriminate].
Qed.





Lemma mapE_itemRow (fmt : string) (l : list CalendarItem) :
  Forall has_start l ->
  exists rows, mapE (itemRow fmt) l = inr rows /\ map row_item rows = l.
Proof.
  induction l as [|x l IH]; intros Hl; simpl.
  - now exists [].
  - apply Forall_cons in Hl as [Hx Hl].
    destruct (IH Hl) as (rows & -> & Hrows).
    apply has_start_parse in Hx as [start Hx]. unfold itemRow. rewrite Hx.
    eexists. split; [reflexivity |]. simpl. now rewrite Hrows.
Qed.






End RenderFacts.

Lemma sample_items_unfiltered (v : ViewType) (l : list CalendarItem) :
  filteredItemsOf (Sample.showing v) l = l.
Proof. apply filter_all, keepItem_unfiltered. Qed.






(** ** More on the filter *)

Section FilterMore.

Import JsString FilterSpec.






Lemma type_name_not_all (ty : ItemType) : String.eqb (type_name ty) "all" = false.
Proof. now destruct ty. Qed.

Lemma keepItem_of_type (q fp : string) (ty : ItemType) (item : CalendarItem) :
  keepItem q fp (type_name ty) item
  = keepItem q fp "all" item && String.eqb (type_name (type item)) (type_name ty).
Proof.
  unfold keepItem, matchesType. rewrite type_name_not_all. simpl.
  now rewrite andb_true_r.
Qed.

(** The type filter splits what "all" shows: every item shown under
    "all" is shown under exactly one of the five types, so the five
    filtered lists together are a rearrangement of the list under "all". *)
Theorem type_filter_partitions (q fp : string) (calendarItems : list CalendarItem) :
  Permutation
    (filteredItems q fp "all" calendarItems)
    (flat_map (fun ty => filteredItems q fp (type_name ty) calendarItems) itemTypes).
Proof.
  unfold filteredItems, itemTypes. simpl. rewrite app_nil_r.
  induction calendarItems as [|item l IH]; simpl; [reflexivity |].
  rewrite (keepItem_of_type q fp task), (keepItem_of_type q fp event),
    (keepItem_of_type q fp goal), (keepItem_of_type q fp reminder),
    (keepItem_of_type q fp timeblock).
  destruct (keepItem q fp "all" item); simpl; [| exact IH].
  rewrite IH.
  destruct (type item); simpl; repeat rewrite <- Permutation_middle; reflexivity.
Qed.

(** The type filter compares exactly: a value that is neither "all" nor
    the name of a type shows nothing. *)
Theorem unknown_type_shows_nothing (q fp ft : string) (calendarItems : list CalendarItem) :
  ft <> "all" -> (forall ty, type_name ty <> ft) ->
  filteredItems q fp ft calendarItems = [].
Proof.
  intros Hall Hty. unfold filteredItems.
  induction calendarItems as [|item l IH]; simpl; [reflexivity |].
  rewrite IH. unfold keepItem, matchesType.
  apply String.eqb_neq in Hall. rewrite Hall.
  pose proof (Hty (type item)) as H%String.eqb_neq. rewrite H.
  now rewrite andb_false_r.
Qed.

(** *** The project options *)

Lemma array_from_set_acc (l seen : list string) :
  let r := fold_left (fun seen x => if existsb (String.eqb x) seen then seen
                                    else app seen [x]) l seen in
  (NoDup seen -> NoDup r) /\ (forall x, In x r <-> In x seen \/ In x l).
Proof.
  revert seen. induction l as [|y l IH]; intros seen; simpl.
  - split; [auto | intros x; tauto].
  - destruct (existsb (String.eqb y) seen) eqn:E.
    + destruct (IH seen) as [Hn Hin]. split; [exact Hn |].
      intros x. rewrite Hin.
      apply existsb_exists in E as (z & Hz & ->%String.eqb_eq).
      split; [tauto |]. intros [H|[->|H]]; auto.
    + destruct (IH (app seen [y])) as [Hn Hin]. split.
      * intros Hs. apply Hn. apply NoDup_app. repeat split; auto.
        -- intros x Hx Hy%list_elem_of_In. destruct Hy as [<-|[]].
           assert (existsb (String.eqb y) seen = true); [| congruence].
           apply existsb_exists. exists y. split; [now apply list_elem_of_In |].
           apply String.eqb_refl.
        -- apply NoDup_singleton.
      * intros x. rewrite Hin, in_app_iff. simpl. tauto.
Qed.

Lemma filter_Boolean_In (l : list (option string)) (p : string) :
  In p (filter_Boolean l) <-> p <> "" /\ In (Some p) l.
Proof.
  unfold filter_Boolean. induction l as [|o l IH]; simpl; [tauto |].
  destruct o as [[|c s]|]; simpl; rewrite ?IH.
  - split; [tauto |]. intros [Hne [[= <-]|H]]; [contradiction | tauto].
  - split.
    + intros [<-|[Hne H]]; split; auto; discriminate.
    + intros [Hne [[= <-]|H]]; auto.
  - split; [tauto |]. intros [Hne [[=]|H]]. tauto.
Qed.

Lemma projects_In (calendarItems : list CalendarItem) (p : string) :
  In p (projects calendarItems)
  <-> p <> "" /\ exists item, In item calendarItems /\ project item = Some p.
Proof.
  unfold projects, array_from_set.
  destruct (array_from_set_acc (filter_Boolean (map project calendarItems)) [])
    as [_ Hin].
  rewrite Hin, filter_Boolean_In, in_map_iff. simpl.
  split.
  - intros [[]|[Hne (item & Hp & Hi)]]. eauto.
  - intros [Hne (item & Hi & Hp)]. right. eauto.
Qed.

(** The options of the project filter are the non-empty projects of the
    calendar items, each offered once. *)
Theorem projects_exact (calendarItems : list CalendarItem) :
  NoDup (projects calendarItems)
  /\ forall p,
      In p (projects calendarItems)
      <-> p <> "" /\ exists item, In item calendarItems /\ project item = Some p.
Proof.
  split; [| apply projects_In].
  unfold projects, array_from_set.
  destruct (array_from_set_acc (filter_Boolean (map project calendarItems)) [])
    as [Hn _].
  apply Hn. constructor.
Qed.

(** Choosing an offered project, with no query and every type, always
    shows something; unless the project is itself called "all", it shows
    items of that project only. *)
Theorem offered_project_shows_items (calendarItems : list CalendarItem) (p : string) :
  In p (projects calendarItems) ->
  filteredItems "" p "all" calendarItems <> []
  /\ (p <> "all" ->
      forall item, In item (filteredItems "" p "all" calendarItems) ->
                   project item = Some p).
Proof.
  intros (Hne & item & Hi & Hp)%projects_In. split.
  - assert (In item (filteredItems "" p "all" calendarItems)) as Hin.
    { apply filter_In. split; [exact Hi |].
      unfold keepItem, matchesSearch, matchesProject, matchesType.
      rewrite Hp, String.eqb_refl, orb_true_r. simpl.
      now rewrite includes_empty. }
    intros E. rewrite E in Hin. exact Hin.
  - intros Hall item' [_ Hk]%filter_In.
    unfold keepItem in Hk. apply andb_true_iff in Hk as [[_ Hk]%andb_true_iff _].
    apply matchesProject_spec in Hk as [Hk|Hk]; [contradiction | exact Hk].
Qed.

End FilterMore.

(** ** More on drag and drop *)

Section DropMore.

Context {ext : Externals}.
Variable fails : StoreOracle.

Lemma handleDrop_idle_world (w : World) (d : Z) :
  draggedItem (view w) = None -> handleDrop fails d w = (inr tt, w).
Proof. intros H. unfold handleDrop. now rewrite H. Qed.

Lemma handleDrop_clears (st : ViewState) (d : Z) :
  draggedItem (view (snd (run (handleDrop fails d) st))) = None
  /\ fst (run (handleDrop fails d) st) = inr tt.
Proof.
  destruct (draggedItem st) as [item|] eqn:H.
  - destruct (handleDrop_shape fails st item d H) as (tr & -> & _). now split.
  - rewrite (handleDrop_idle fails st d H). now split.
Qed.

(** A second drop does nothing: after a drop the drag state is empty, so
    a drop event that follows makes no store call, raises no toast and
    changes no state. *)
Theorem drop_twice_is_drop_once (st : ViewState) (d1 d2 : Z) :
  run (handleDrop fails d1;; handleDrop fails d2) st = run (handleDrop fails d1) st.
Proof.
  destruct (handleDrop_clears st d1) as [Hc Hr].
  unfold run in *. unfold bind.
  destruct (handleDrop fails d1 {| view := st; trace := [] |}) as [[e|[]] w];
    simpl in *; [discriminate |].
  now apply handleDrop_idle_world.
Qed.

Lemma dropped_restores (st : ViewState) (item : CalendarItem) (over : Z) :
  draggedItem st = None -> draggedOver st = None ->
  dropped (setDraggedOver (Some over) (setDraggedItem (Some item) st)) = st.
Proof. destruct st. simpl. intros -> ->. reflexivity. Qed.

Lemma dragAndDrop_run (st : ViewState) (item : CalendarItem) (over target : Z) :
  run (dragAndDrop fails item over target) st
  = run (handleDrop fails target)
        (setDraggedOver (Some over) (setDraggedItem (Some item) st)).
Proof. reflexivity. Qed.

(** A whole drag gesture, started with nothing dragged, leaves the view
    state exactly as it was, whether the store call succeeds or fails,
    and no exception leaves it. *)
Theorem dragAndDrop_restores_view (st : ViewState) (item : CalendarItem) (over target : Z) :
  draggedItem st = None -> draggedOver st = None ->
  let out := run (dragAndDrop fails item over target) st in
  view (snd out) = st /\ fst out = inr tt.
Proof.
  intros Hi Ho out. subst out. rewrite dragAndDrop_run.
  pose proof (handleDrop_shape fails
                (setDraggedOver (Some over) (setDraggedItem (Some item) st))
                item target eq_refl) as (tr & H & _).
  rewrite H. simpl. split; [| reflexivity].
  now apply dropped_restores.
Qed.

(** A drop with nothing dragged returns before the cleanup: a day that
    was dragged over stays marked as the drop target. *)
Theorem drop_without_item_keeps_target (st : ViewState) (over target : Z) :
  draggedItem st = None ->
  run (handleDragOver over;; handleDrop fails target) st
  = (inr tt, {| view := setDraggedOver (Some over) st; trace := [] |}).
Proof.
  intros H.
  change (run (handleDragOver over;; handleDrop fails target) st)
    with (handleDrop fails target
            {| view := setDraggedOver (Some over) st; trace := [] |}).
  apply handleDrop_idle_world. exact H.
Qed.

(** An event or a time block without an end time (or with the empty
    string as end time) is given one hour: the call carries the start of
    the target day as start and one hour later as end. *)
Theorem handleDrop_default_hour (st : ViewState) (item : CalendarItem) (d : Z) :
  draggedItem st = Some item ->
  endTime item = None \/ endTime item = Some "" ->
  let calls := calls_of (trace (snd (run (handleDrop fails d) st))) in
  (type item = event ->
   calls = [(updateEvent, VStr (id item),
             <[ "startDate" := VStr (toISOString (startOfDay d)) ]>
               {[ "endDate" := VStr (toISOString (startOfDay d + 3600000)) ]})])
  /\ (type item = timeblock ->
      calls = [(updateTimeBlock, VStr (id item),
                <[ "startTime" := VStr (toISOString (startOfDay d)) ]>
                  {[ "endTime" := VStr (toISOString (startOfDay d + 3600000)) ]})]).
Proof.
  intros H He calls. subst calls.
  assert (Hd : dropDuration item = Some 3600000).
  { unfold dropDuration. destruct He as [-> | ->]; reflexivity. }
  split; intros Ht.
  - now rewrite (handleDrop_event fails st item d H Ht), Hd.
  - now rewrite (handleDrop_timeblock fails st item d H Ht), Hd.
Qed.

(** An event or a time block with an end time, whose start time is
    missing or is no date, or whose end time is no date, is not updated:
    the drop makes no store call, raises the error toast and clears the
    drag state. *)
Theorem handleDrop_bad_times (st : ViewState) (item : CalendarItem) (d : Z) (es : string) :
  draggedItem st = Some item ->
  type item = event \/ type item = timeblock ->
  endTime item = Some es -> JsString.truthy es = true ->
  parseISO es = None \/ parseISO_opt (startTime item) = None ->
  run (handleDrop fails d) st
  = (inr tt, {| view := dropped st; trace := [Toast rescheduleErrorToast] |}).
Proof.
  intros H Ht He Htr Hbad.
  assert (Hd : dropDuration item = None).
  { unfold dropDuration. rewrite He, Htr. unfold getTime.
    destruct Hbad as [-> | ->]; [reflexivity |].
    now destruct (parseISO es). }
  destruct Ht as [Ht|Ht].
  - now rewrite (handleDrop_event fails st item d H Ht), Hd.
  - now rewrite (handleDrop_timeblock fails st item d H Ht), Hd.
Qed.


End DropMore.

(** ** More on handleUpdateCalendarItem *)

Section UpdateMore.

Context {ext : Externals}.
Variable fails : StoreOracle.

Lemma find_first_match (target : string) (before after : list CalendarItem)
      (item : CalendarItem) :
  id item = target -> (forall i, In i before -> id i <> target) ->
  JsArray.find (fun i => String.eqb (id i) target) (before ++ item :: after) = Some item.
Proof.
  intros Hid Hb. unfold JsArray.find.
  induction before as [|x before IH]; simpl.
  - now rewrite Hid, String.eqb_refl.
  - assert (Hx : id x <> target) by (apply Hb; now left).
    apply String.eqb_neq in Hx. rewrite Hx. apply IH.
    intros i Hi. apply Hb. now right.
Qed.

Lemma find_no_match (target : string) (l : list CalendarItem) :
  (forall i, In i l -> id i <> target) ->
  JsArray.find (fun i => String.eqb (id i) target) l = None.
Proof.
  intros H. unfold JsArray.find. induction l as [|x l IH]; simpl; [reflexivity |].
  assert (Hx : id x <> target) by (apply H; now left).
  apply String.eqb_neq in Hx. rewrite Hx. apply IH.
  intros i Hi. apply H. now right.
Qed.

(** handleUpdateCalendarItem acts on the first calendar item with the
    given id: it makes the one store call of that item's type with the
    updates as they were passed, raises a toast only when the call
    fails, and for a goal or a reminder does nothing at all. Later items
    with the same id play no part. *)
Theorem update_first_match (st : ViewState) (before after : list CalendarItem)
        (item : CalendarItem) (target : string) (updates : Obj) :
  id item = target -> (forall i, In i before -> id i <> target) ->
  run (handleUpdateCalendarItem fails (before ++ item :: after) target updates) st
  = (inr tt,
     {| view := st;
        trace := match storeOpOf (type item) with
                 | Some op =>
                     Call op (VStr target) updates
                     :: (if fails [] op (VStr target) updates
                         then [Toast updateErrorToast] else [])
                 | None => []
                 end |}).
Proof.
  intros Hid Hb. unfold run, handleUpdateCalendarItem.
  rewrite (find_first_match target before after item Hid Hb).
  destruct (type item); simpl; try reflexivity;
    unfold try_catch, try_catch_finally, await_call, toast, emit, ret; simpl;
    destruct (fails [] _ _ _); reflexivity.
Qed.

(** An id that no calendar item has is ignored without a word: no store
    call, no toast, no change of state. *)
Theorem update_unknown_id (st : ViewState) (calendarItems : list CalendarItem)
        (target : string) (updates : Obj) :
  (forall i, In i calendarItems -> id i <> target) ->
  run (handleUpdateCalendarItem fails calendarItems target updates) st
  = (inr tt, {| view := st; trace := [] |}).
Proof.
  intros H. unfold run, handleUpdateCalendarItem.
  now rewrite (find_no_match target calendarItems H).
Qed.

End UpdateMore.

(** ** More on the auto-rollover *)

Section RolloverMore.

Context {ext : Externals}.

Import RolloverSpec.

Lemma filter_indexed_too_long (tasks rolled : list Obj) (i : nat) :
  (length (drop i tasks) < length rolled)%nat ->
  filter_indexed
    (fun task index =>
       match tasks !! index with
       | Some original =>
           inr (strict_ne (member task "isAutoRolled") (member original "isAutoRolled"))
       | None => inl TypeError
       end) i rolled
  = inl TypeError.
Proof.
  revert i. induction rolled as [|r rolled IH]; intros i Hlen; simpl in *; [lia |].
  destruct (tasks !! i) as [o|] eqn:Ho; [| reflexivity].
  rewrite (drop_S _ _ _ Ho) in Hlen. simpl in Hlen.
  rewrite IH by lia. reflexivity.
Qed.

Lemma differing_same_flags (rolled original : list Obj) :
  Forall2 (fun r o => member r "isAutoRolled" = member o "isAutoRolled") rolled original ->
  differing rolled original = [].
Proof.
  induction 1 as [|r o rolled original Hro _ IH]; simpl; [reflexivity |].
  now destruct (decide _).
Qed.

Lemma pageLife_run (st : ViewState) (tasks : list Obj) (later : list (list Obj)) :
  (length (autoRolloverTasks tasks) <= length tasks)%nat ->
  run (pageLife tasks later) st
  = (inr tt,
     {| view := st;
        trace := map (fun task => Call updateTask (member task "id") (rolloverUpdate task))
                     (differing (autoRolloverTasks tasks) tasks) |}).
Proof.
  intros Hlen.
  unfold run, pageLife, renderEffects, useEffect_noDeps, autoRollover, tasksToUpdate.
  rewrite (filter_indexed_differing tasks (autoRolloverTasks tasks) 0)
    by (rewrite drop_0; exact Hlen).
  rewrite drop_0. unfold bind at 1. unfold bind at 1. simpl.
  rewrite forEach_fire_call. simpl. now rewrite forEach_rerender.
Qed.

(** When the rollover rule returns more tasks than it was given, the
    mount effect stops with a TypeError before it has made any store
    call: the comparison with the missing original fails while the tasks
    to update are still being collected. *)
Theorem autoRollover_too_many (st : ViewState) (tasks : list Obj)
        (later : list (list Obj)) :
  (length tasks < length (autoRolloverTasks tasks))%nat ->
  run (pageLife tasks later) st = (inl TypeError, {| view := st; trace := [] |}).
Proof.
  intros Hlen.
  unfold run, pageLife, renderEffects, useEffect_noDeps, autoRollover, tasksToUpdate.
  rewrite (filter_indexed_too_long tasks (autoRolloverTasks tasks) 0)
    by (rewrite drop_0; exact Hlen).
  reflexivity.
Qed.

(** Only the flag decides: when every rolled task has the isAutoRolled
    flag of its original, the mount makes no store call, whatever else
    the rule changed, a due date included. *)
Theorem autoRollover_same_flags (st : ViewState) (tasks : list Obj)
        (later : list (list Obj)) :
  Forall2 (fun r o => member r "isAutoRolled" = member o "isAutoRolled")
          (autoRolloverTasks tasks) tasks ->
  run (pageLife tasks later) st = (inr tt, {| view := st; trace := [] |}).
Proof.
  intros H. rewrite pageLife_run.
  - now rewrite (differing_same_flags _ _ H).
  - apply Forall2_length in H. lia.
Qed.

End RolloverMore.

(** ** More on the week view *)

Section WeekMore.

Context {ext : Externals}.

Import ListSpec.


Lemma mapE_weekColumn_ok (filtered : list CalendarItem) (days : list Z) :
  (forall d item, In d days -> In item (dayItems filtered d) -> has_start item) ->
  exists columns,
    mapE (weekColumn filtered) days = inr columns
    /\ map col_day columns = days
    /\ Forall (fun col => map row_item (col_rows col) = dayItems filtered (col_day col))
              columns.
Proof.
  induction days as [|d days IH]; intros H; simpl.
  - exists []. repeat split. constructor.
  - destruct IH as (columns & -> & Hdays & Hcols).
    { intros d' item Hd. apply H. now right. }
    destruct (mapE_itemRow "HH:mm" (dayItems filtered d)) as (rows & Hrows & Hitems).
    { apply List.Forall_forall. intros item. apply H. now left. }
    unfold weekColumn at 1. rewrite Hrows.
    eexists. split; [reflexivity |]. simpl. split; [now rewrite Hdays |].
    constructor; [exact Hitems | exact Hcols].
Qed.


(** The week view has no limit of three: when the items of the days of
    the shown week all have a start time that is a time, it draws one
    column per day of the week, and each column holds all the filtered
    items of its day, in order. Items of other days need no start time. *)
Theorem week_view_draws (st : ViewState) (calendarItems : list CalendarItem) :
  let weekDays :=
    eachDayOfInterval (startOfWeek (currentDate st)) (endOfWeek (currentDate st)) in
  let filtered := filteredItemsOf st calendarItems in
  (forall d item, In d weekDays -> In item (dayItems filtered d) -> has_start item) ->
  exists columns,
    renderWeekView st calendarItems = inr columns
    /\ map col_day columns = weekDays
    /\ Forall (fun col => map row_item (col_rows col) = dayItems filtered (col_day col))
              columns.
Proof. intros weekDays filtered H. now apply mapE_weekColumn_ok. Qed.


End WeekMore.

(** ** More on navigation and the forms *)

Section ViewMore.

Context {ext : Externals}.

Lemma navigateToday_press (today : Z) (b : NavButton) (st : ViewState) :
  navigateToday today (pressNav b st) = navigateToday today st.
Proof.
  destruct b; unfold pressNav, navigatePrevious, navigateNext;
    destruct (viewType st); reflexivity.
Qed.

(** The Today button undoes any navigation: however the previous and
    next buttons were pressed before, after Today the view state is what
    Today alone would have given. *)
Theorem today_resets_navigation (today : Z) (presses : list NavButton) (st : ViewState) :
  navigateToday today (pressAll presses st) = navigateToday today st.
Proof.
  unfold pressAll. revert st. induction presses as [|b presses IH]; intros st; simpl.
  - reflexivity.
  - rewrite IH. apply navigateToday_press.
Qed.

(** In the day view, next and previous undo each other exactly. *)
Theorem day_view_round_trip (st : ViewState) :
  viewType st = day ->
  navigatePrevious (navigateNext st) = st /\ navigateNext (navigatePrevious st) = st.
Proof.
  destruct st as [cd sd v sw tf ef bf ff rf ei di dov q fp ft]. simpl. intros ->.
  unfold navigatePrevious, navigateNext, setCurrentDate. simpl.
  split; f_equal; lia.
Qed.

(** Editing an item records it and opens the form of its type, and only
    that form is given the item's record; no form is ever closed, for a
    goal or a reminder none is opened, and nothing else in the view
    state changes. *)
Theorem edit_opens_matching_form (item : CalendarItem) (st : ViewState) :
  let st' := handleEditItem item st in
  editingItem st' = Some item
  /\ (forall ty, formRecord ty st'
                 = if decide (type item = ty) then Some (originalItem item) else None)
  /\ isTaskFormOpen st' = (isTaskFormOpen st || bool_decide (type item = task))
  /\ isEventFormOpen st' = (isEventFormOpen st || bool_decide (type item = event))
  /\ isTimeBlockFormOpen st'
     = (isTimeBlockFormOpen st || bool_decide (type item = timeblock))
  /\ setEditingItem (editingItem st)
       (setIsTaskFormOpen (isTaskFormOpen st)
          (setIsEventFormOpen (isEventFormOpen st)
             (setIsTimeBlockFormOpen (isTimeBlockFormOpen st) st')))
     = st.
Proof.
  unfold handleEditItem, formRecord.
  destruct st as [cd sd v sw tf ef bf ff rf ei di dov q fp ft].
  destruct (type item) eqn:Ht; simpl; rewrite ?Ht, ?orb_false_r, ?orb_true_r;
    repeat split; try (intros []; reflexivity).
Qed.

(** With no form open and nothing being edited, opening a form and
    closing it again leaves the view state exactly as it was: for an
    edit of a task, an event or a time block, and for the button that
    creates a time block. *)
Theorem open_then_close_restores (item : CalendarItem) (st : ViewState) :
  editingItem st = None ->
  isTaskFormOpen st = false -> isEventFormOpen st = false ->
  isTimeBlockFormOpen st = false ->
  (type item = task -> taskFormOnClose (handleEditItem item st) = st)
  /\ (type item = event -> eventFormOnClose (handleEditItem item st) = st)
  /\ (type item = timeblock -> timeBlockFormOnClose (handleEditItem item st) = st)
  /\ (forall start finish,
         timeBlockFormOnClose (handleCreateTimeBlock None start finish st) = st).
Proof.
  destruct st as [cd sd v sw tf ef bf ff rf ei di dov q fp ft]. simpl.
  intros -> -> -> ->. unfold handleEditItem.
  repeat split; try (intros ->; reflexivity).
Qed.

End ViewMore.

(** ** The extra properties on the sample data *)


Lemma unknown_type_shows_nothing_sample :
  filteredItems "" "all" "Task" Sample.items = [].
Proof.
  apply unknown_type_shows_nothing; [discriminate | intros []; discriminate].
Defined.

Lemma offered_project_shows_items_sample :
  filteredItems "" "Work" "all" [Sample.inProject "Work" Sample.review; Sample.report]
  <> [].
Proof.
  apply (offered_project_shows_items
           [Sample.inProject "Work" Sample.review; Sample.report] "Work").
  vm_compute. left. reflexivity.
Defined.

Lemma dragAndDrop_restores_view_sample :
  view (snd (run (dragAndDrop (ext := Sample.ext) Sample.store_down Sample.review
                              Sample.today Sample.target) Sample.initial))
  = Sample.initial.
Proof.
  apply (dragAndDrop_restores_view (ext := Sample.ext) Sample.store_down Sample.initial
           Sample.review Sample.today Sample.target); reflexivity.
Defined.

Lemma drop_without_item_keeps_target_sample :
  draggedOver (view (snd (run (handleDragOver Sample.today;;
                               handleDrop (ext := Sample.ext) Sample.store_ok Sample.target)
                              Sample.initial)))
  = Some Sample.today.
Proof.
  rewrite (drop_without_item_keeps_target (ext := Sample.ext) Sample.store_ok
             Sample.initial Sample.today Sample.target eq_refl).
  reflexivity.
Defined.

Lemma handleDrop_default_hour_sample :
  calls_of (trace (snd (run (handleDrop (ext := Sample.ext) Sample.store_ok Sample.target)
                            (Sample.dragging Sample.standup))))
  = [(updateEvent, VStr "e2",
      <[ "startDate" := VStr "2024-03-12T00:00:00.000Z" ]>
        {[ "endDate" := VStr "2024-03-12T01:00:00.000Z" ]})].
Proof.
  pose proof (handleDrop_default_hour (ext := Sample.ext) Sample.store_ok
                (Sample.dragging Sample.standup) Sample.standup Sample.target
                eq_refl (or_introl eq_refl)) as H.
  cbv zeta in H. destruct H as [H _]. rewrite (H eq_refl).
  vm_compute. reflexivity.
Defined.

Lemma handleDrop_bad_times_sample :
  trace (snd (run (handleDrop (ext := Sample.ext) Sample.store_ok Sample.target)
                  (Sample.dragging Sample.vague)))
  = [Toast (rescheduleErrorToast (ext := Sample.ext))].
Proof.
  rewrite (handleDrop_bad_times (ext := Sample.ext) Sample.store_ok
             (Sample.dragging Sample.vague) Sample.vague Sample.target
             "2024-03-10T15:00:00.000Z" eq_refl (or_intror eq_refl) eq_refl eq_refl
             (or_intror eq_refl)).
  reflexivity.
Defined.


Lemma update_first_match_sample :
  calls_of (trace (snd (run (handleUpdateCalendarItem
                               (ext := Sample.ext) Sample.store_ok
                               ([Sample.report] ++ Sample.review :: [Sample.review])
                               "e1" {[ "title" := VStr "Review" ]})
                            Sample.initial)))
  = [(updateEvent, VStr "e1", {[ "title" := VStr "Review" ]})].
Proof.
  rewrite (update_first_match (ext := Sample.ext) Sample.store_ok Sample.initial
             [Sample.report] [Sample.review] Sample.review "e1"
             {[ "title" := VStr "Review" ]} eq_refl).
  - reflexivity.
  - intros i [<-|[]]. discriminate.
Defined.

Lemma update_unknown_id_sample :
  run (handleUpdateCalendarItem (ext := Sample.ext) Sample.store_ok Sample.items
                                "nobody" ∅) Sample.initial
  = (inr tt, {| view := Sample.initial; trace := [] |}).
Proof.
  apply update_unknown_id.
  intros i Hi. repeat (destruct Hi as [<-|Hi]; [discriminate |]). destruct Hi.
Defined.

Lemma autoRollover_too_many_sample :
  run (pageLife (ext := Sample.ext_doubling) Sample.tasks []) Sample.initial
  = (inl TypeError, {| view := Sample.initial; trace := [] |}).
Proof.
  apply (autoRollover_too_many (ext := Sample.ext_doubling)).
  vm_compute. lia.
Defined.

Lemma autoRollover_same_flags_sample :
  run (pageLife (ext := Sample.ext_redating) Sample.tasks []) Sample.initial
  = (inr tt, {| view := Sample.initial; trace := [] |}).
Proof.
  apply (autoRollover_same_flags (ext := Sample.ext_redating)).
  repeat constructor.
Defined.

Lemma week_view_draws_sample :
  exists columns,
    renderWeekView (ext := Sample.ext) (Sample.showing week) Sample.items = inr columns
    /\ length columns = 7%nat.
Proof.
  destruct (week_view_draws (ext := Sample.ext) (Sample.showing week) Sample.items)
    as (columns & Hr & Hd & _).
  - intros d item _ Hi. apply dayItems_In in Hi as [Hi _].
    rewrite sample_items_unfiltered in Hi.
    repeat (destruct Hi as [<-|Hi]; [do 2 eexists; split; reflexivity |]).
    destruct Hi.
  - exists columns. split; [exact Hr |].
    rewrite <- (length_map col_day), Hd. vm_compute. reflexivity.
Defined.


Lemma day_view_round_trip_sample :
  navigatePrevious (ext := Sample.ext) (navigateNext (ext := Sample.ext) (Sample.showing day))
  = Sample.showing day.
Proof.
  apply (day_view_round_trip (ext := Sample.ext) (Sample.showing day)). reflexivity.
Defined.

Lemma open_then_close_restores_sample :
  eventFormOnClose (handleEditItem Sample.review Sample.initial) = Sample.initial.
Proof.
  apply (open_then_close_restores Sample.review Sample.initial); reflexivity.
Defined.
